(** * cement.ext.ext_json: the JSON output handler and the JSON config handler

    A shallow embedding of [src/cement/ext/ext_json.py] and of the parts of
    the Python runtime that it calls ([json.dumps], [json.load], [open],
    [sys.stdout]), followed by the properties of [render], [_parse_file] and
    [set_output_handler].

    Conventions of the embedding:
    - a Python [str] is the list of its code points ([pystr]);
    - a Python object is a [pyval]; dictionaries keep insertion order and
      are association lists with string keys; lists and tuples are one kind
      of sequence ([PList]), the encoder writes both as arrays;
    - a call is an [outcome]: it returns, or raises, or leaves the model;
    - state (the streams of the interpreter, the files, the config store)
      is passed explicitly: a stateful call maps a state to an outcome and
      the state it leaves behind, also when it raises;
    - the [json] module follows [Lib/json] of CPython (encoder, decoder,
      scanner) with the default arguments, which is how the source calls it.

    Outside the embedding: finite floating point numbers (their text is the
    shortest decimal that reads back to the same binary64), the recursion
    limit of the interpreter, the garbage collector, and memory. *)

From Stdlib Require Import ZArith NArith Lia List Bool String Ascii.
From Stdlib Require Import DecimalFacts DecimalPos DecimalN.
From stdpp Require Import base option list gmap.

#[local] Open Scope N_scope.

(** ** Python values *)

Module Py.

(** A [str]: its code points, in order. *)
Definition pystr : Type := list N.

(** [ord "a"] is the code point of a character and [str_of "abc"] the [str]
    of a literal whose characters are below 256; both are numerals once
    parsed. *)
Definition of_literal (s : string) : pystr :=
  map N_of_ascii (list_ascii_of_string s).

Abbreviation ord a :=
  (ltac:(let n := eval vm_compute in (N_of_ascii a%char) in exact n))
  (only parsing).
Abbreviation str_of s :=
  (ltac:(let l := eval vm_compute in (of_literal s%string) in exact l))
  (only parsing).

(** The floats of the model: the three that are not finite. *)
Inductive nonfinite : Type := NaN | PosInf | NegInf.

(** The objects a data dictionary or a decoded document is made of.
    [PObject] stands for an object of any other type (a set, a file, an
    instance of a user class), told apart by its identity. *)
#[warnings="-register-all"]
Inductive pyval : Type :=
| PNone
| PBool (b : bool)
| PInt (z : Z)
| PFloat (f : nonfinite)
| PStr (s : pystr)
| PList (l : list pyval)
| PDict (d : list (pystr * pyval))
| PObject (id : N).

(** Exceptions that the modelled calls raise. *)
Inductive exn : Type :=
| TypeError          (* json.dumps: object is not JSON serializable *)
| IOError            (* open: no such file, permission denied *)
| JSONDecodeError    (* json.load: a ValueError *)
| AttributeError.    (* merge: the argument is no mapping *)

(** What the model does not follow. *)
Inductive gap : Type :=
| FiniteFloat        (* a number literal with a fraction or an exponent *)
| Fuel.              (* the step bound of a scanner was reached *)

Inductive outcome (A : Type) : Type :=
| Return (a : A)
| Raise (e : exn)
| Unmodelled (g : gap).
Arguments Return {A} a.
Arguments Raise {A} e.
Arguments Unmodelled {A} g.

#[export] Instance outcome_ret : MRet outcome := fun A a => Return a.
#[export] Instance outcome_bind : MBind outcome := fun A B f m =>
  match m with
  | Return a => f a
  | Raise e => Raise e
  | Unmodelled g => Unmodelled g
  end.

(** Nested induction over values: the elements of a list and the values of a
    dictionary satisfy the property. *)
Section pyval_nested_ind.
Variable P : pyval -> Prop.
Hypothesis HNone : P PNone.
Hypothesis HBool : forall b, P (PBool b).
Hypothesis HInt : forall z, P (PInt z).
Hypothesis HFloat : forall f, P (PFloat f).
Hypothesis HStr : forall s, P (PStr s).
Hypothesis HList : forall l, Forall P l -> P (PList l).
Hypothesis HDict : forall d, Forall (fun kv => P (snd kv)) d -> P (PDict d).
Hypothesis HObject : forall id, P (PObject id).

Fixpoint pyval_nested_ind (v : pyval) : P v :=
  match v with
  | PNone => HNone
  | PBool b => HBool b
  | PInt z => HInt z
  | PFloat f => HFloat f
  | PStr s => HStr s
  | PList l =>
      HList l ((fix go (l : list pyval) : Forall P l :=
                  match l with
                  | [] => List.Forall_nil P
                  | x :: l' => List.Forall_cons P x l' (pyval_nested_ind x) (go l')
                  end) l)
  | PDict d =>
      HDict d ((fix go (d : list (pystr * pyval))
                  : Forall (fun kv => P (snd kv)) d :=
                  match d with
                  | [] => List.Forall_nil _
                  | kv :: d' =>
                      List.Forall_cons (fun kv => P (snd kv)) kv d'
                        (pyval_nested_ind (snd kv)) (go d')
                  end) d)
  | PObject id => HObject id
  end.
End pyval_nested_ind.

End Py.
Export Py.

(** ** Calls with state

    A call that reads or changes a state [S] maps the state before to its
    outcome and the state after. An exception keeps the changes made before
    it was raised. *)

Definition run (S A : Type) : Type := S -> outcome A * S.

Definition run_ret {S A : Type} (a : A) : run S A := fun s => (Return a, s).

Definition run_bind {S A B : Type} (m : run S A) (f : A -> run S B) : run S B :=
  fun s =>
    match m s with
    | (Return a, s') => f a s'
    | (Raise e, s') => (Raise e, s')
    | (Unmodelled g, s') => (Unmodelled g, s')
    end.

(** A call without effect on the state. *)
Definition run_pure {S A : Type} (o : outcome A) : run S A := fun s => (o, s).

Notation "x <~ m ;; k" := (run_bind m (fun x => k))
  (at level 100, m at next level, right associativity).
Notation "m ;;; k" := (run_bind m (fun _ => k))
  (at level 100, right associativity).

(** ** Files: the built-in [open] and the [read] method

    [opened] lists the file objects that were opened and that no call has
    closed. The interpreter also closes a file object when it collects it;
    the model does not follow the collector. *)

Module builtins.

Inductive entry : Type :=
| Regular (content : pystr)     (* a readable text file *)
| Denied.                       (* a directory, or no permission to read *)

Record file : Type := { name : pystr }.

Record files : Type := {
  disk : gmap pystr entry;
  opened : list file
}.

(** [open(file_path)], for reading. *)
Definition open (file_path : pystr) : run files file :=
  fun fs =>
    match disk fs !! file_path with
    | Some (Regular _) =>
        let fp := {| name := file_path |} in
        (Return fp, {| disk := disk fs; opened := opened fs ++ [fp] |})
    | Some Denied | None => (Raise IOError, fs)
    end.

(** [fp.read()]: the whole content. *)
Definition read (fp : file) : run files pystr :=
  fun fs =>
    match disk fs !! name fp with
    | Some (Regular content) => (Return content, fs)
    | Some Denied | None => (Raise IOError, fs)
    end.

End builtins.

(** ** The [json] module of the standard library: the encoder

    [json.dumps(obj)] with its default arguments: [ensure_ascii=True],
    [allow_nan=True], separators [", "] and [": "], no indentation, keys in
    insertion order. *)

Module json.

(** One hexadecimal digit, lower case, as ['{0:x}'.format] prints it. *)
Definition hex_char (d : N) : N := if d <? 10 then 48 + d else 87 + d.

(** ['\\u{0:04x}'.format(n)] for [n < 0x10000]. *)
Definition u_escape (n : N) : pystr :=
  [ord "\"; ord "u";
   hex_char (n / 4096 mod 16); hex_char (n / 256 mod 16);
   hex_char (n / 16 mod 16); hex_char (n mod 16)].

(** The [replace] function of [py_encode_basestring_ascii]: what one
    character matched by [ESCAPE_ASCII] is replaced with, and the character
    itself when it is printable ASCII other than the quote and the
    backslash. *)
Definition replace (c : N) : pystr :=
  if c =? ord "\" then str_of "\\"
  else if c =? 34 then [ord "\"; 34]
  else if c =? 8 then str_of "\b"
  else if c =? 12 then str_of "\f"
  else if c =? 10 then str_of "\n"
  else if c =? 13 then str_of "\r"
  else if c =? 9 then str_of "\t"
  else if (32 <=? c) && (c <=? 126) then [c]
  else if c <? 65536 then u_escape c
  else
    let n := c - 65536 in
    let s1 := N.lor 55296 (N.land (N.shiftr n 10) 1023) in
    let s2 := N.lor 56320 (N.land n 1023) in
    u_escape s1 ++ u_escape s2.

Definition py_encode_basestring_ascii (s : pystr) : pystr :=
  34 :: flat_map replace s ++ [34].

(** [int.__repr__]: decimal digits, a minus sign for negative numbers. *)
Fixpoint uint_digits (u : Decimal.uint) : pystr :=
  match u with
  | Decimal.Nil => []
  | Decimal.D0 u => 48 :: uint_digits u
  | Decimal.D1 u => 49 :: uint_digits u
  | Decimal.D2 u => 50 :: uint_digits u
  | Decimal.D3 u => 51 :: uint_digits u
  | Decimal.D4 u => 52 :: uint_digits u
  | Decimal.D5 u => 53 :: uint_digits u
  | Decimal.D6 u => 54 :: uint_digits u
  | Decimal.D7 u => 55 :: uint_digits u
  | Decimal.D8 u => 56 :: uint_digits u
  | Decimal.D9 u => 57 :: uint_digits u
  end.

Definition int_repr (z : Z) : pystr :=
  match z with
  | Z0 => [48]
  | Zpos p => uint_digits (Pos.to_uint p)
  | Zneg p => ord "-" :: uint_digits (Pos.to_uint p)
  end.

(** [floatstr] with [allow_nan=True], on the floats of the model. *)
Definition floatstr (f : nonfinite) : pystr :=
  match f with
  | NaN => str_of "NaN"
  | PosInf => str_of "Infinity"
  | NegInf => str_of "-Infinity"
  end.

(** The chunks of a container joined by the item separator [", "]. *)
Fixpoint join_items (chunks : list pystr) : pystr :=
  match chunks with
  | [] => []
  | [c] => c
  | c :: cs => c ++ str_of ", " ++ join_items cs
  end.

(** [_iterencode]: the text of an object, or [TypeError] from [default] at
    the first object of an unsupported type. *)
Fixpoint iterencode (o : pyval) : outcome pystr :=
  match o with
  | PStr s => Return (py_encode_basestring_ascii s)
  | PNone => Return (str_of "null")
  | PBool true => Return (str_of "true")
  | PBool false => Return (str_of "false")
  | PInt z => Return (int_repr z)
  | PFloat f => Return (floatstr f)
  | PList lst =>
      match lst with
      | [] => Return (str_of "[]")
      | _ =>
          chunks ← (fix items (l : list pyval) : outcome (list pystr) :=
                      match l with
                      | [] => Return []
                      | x :: l' =>
                          c ← iterencode x; cs ← items l'; Return (c :: cs)
                      end) lst;
          Return (ord "[" :: join_items chunks ++ [ord "]"])
      end
  | PDict dct =>
      match dct with
      | [] => Return (str_of "{}")
      | _ =>
          chunks ← (fix items (d : list (pystr * pyval)) : outcome (list pystr) :=
                      match d with
                      | [] => Return []
                      | (key, value) :: d' =>
                          c ← iterencode value; cs ← items d';
                          Return ((py_encode_basestring_ascii key
                                     ++ str_of ": " ++ c) :: cs)
                      end) dct;
          Return (ord "{" :: join_items chunks ++ [ord "}"])
      end
  | PObject _ => Raise TypeError
  end.

Definition dumps (obj : pyval) : outcome pystr := iterencode obj.

(** ** The [json] module: the decoder

    [json.loads(s)] with its default arguments ([strict=True], no hooks).
    A scanner takes the text that is left and returns the value with the
    text after it, where the source passes the whole string with an index.
    Every way of rejecting the text is one [JSONDecodeError]. *)

(** [WHITESPACE]: blank, tab, line feed, carriage return. *)
Definition is_ws (c : N) : bool :=
  (c =? 32) || (c =? 9) || (c =? 10) || (c =? 13).

Fixpoint skip_ws (s : pystr) : pystr :=
  match s with
  | c :: rest => if is_ws c then skip_ws rest else s
  | [] => []
  end.

Fixpoint startswith (prefix s : pystr) : bool :=
  match prefix, s with
  | [], _ => true
  | p :: prefix', c :: s' => (p =? c) && startswith prefix' s'
  | _ :: _, [] => false
  end.

Definition hex_val (c : N) : option N :=
  if (48 <=? c) && (c <=? 57) then Some (c - 48)
  else if (97 <=? c) && (c <=? 102) then Some (c - 87)
  else if (65 <=? c) && (c <=? 70) then Some (c - 55)
  else None.

(** [_decode_uXXXX], on the text after the [u]: four hexadecimal digits. *)
Definition decode_uXXXX (s : pystr) : outcome (N * pystr) :=
  match s with
  | h1 :: h2 :: h3 :: h4 :: rest =>
      match hex_val h1, hex_val h2, hex_val h3, hex_val h4 with
      | Some x1, Some x2, Some x3, Some x4 =>
          Return (((x1 * 16 + x2) * 16 + x3) * 16 + x4, rest)
      | _, _, _, _ => Raise JSONDecodeError
      end
  | _ => Raise JSONDecodeError
  end.

(** The [BACKSLASH] table. *)
Definition BACKSLASH (esc : N) : option N :=
  if esc =? 34 then Some 34
  else if esc =? ord "\" then Some (ord "\")
  else if esc =? ord "/" then Some (ord "/")
  else if esc =? ord "b" then Some 8
  else if esc =? ord "f" then Some 12
  else if esc =? ord "n" then Some 10
  else if esc =? ord "r" then Some 13
  else if esc =? ord "t" then Some 9
  else None.

(** The loop of [py_scanstring], one character or escape per turn; [s] is
    the text after the opening quote, [chunks] what was read so far. *)
Fixpoint scanstring_loop (fuel : nat) (s : pystr) (chunks : pystr)
  : outcome (pystr * pystr) :=
  match fuel with
  | O => Unmodelled Fuel
  | S fuel =>
    match s with
    | [] => Raise JSONDecodeError
    | terminator :: s1 =>
      if terminator =? 34 then Return (chunks, s1)
      else if terminator =? ord "\" then
        match s1 with
        | [] => Raise JSONDecodeError
        | esc :: s2 =>
          if esc =? ord "u" then
            '(uni, s3) ← decode_uXXXX s2;
            if (55296 <=? uni) && (uni <=? 56319)
               && startswith (str_of "\u") s3
            then
              '(uni2, s4) ← decode_uXXXX (drop 2 s3);
              if (56320 <=? uni2) && (uni2 <=? 57343)
              then
                let uni :=
                  65536 + N.lor (N.shiftl (uni - 55296) 10) (uni2 - 56320) in
                scanstring_loop fuel s4 (chunks ++ [uni])
              else scanstring_loop fuel s3 (chunks ++ [uni])
            else scanstring_loop fuel s3 (chunks ++ [uni])
          else
            match BACKSLASH esc with
            | Some char => scanstring_loop fuel s2 (chunks ++ [char])
            | None => Raise JSONDecodeError
            end
        end
      else if terminator <? 32 then Raise JSONDecodeError
      else scanstring_loop fuel s1 (chunks ++ [terminator])
    end
  end.

Definition py_scanstring (s : pystr) : outcome (pystr * pystr) :=
  scanstring_loop (S (length s)) s [].

(** [NUMBER_RE]: an optional minus sign and either a single 0 or a digit
    from 1 to 9 and any digits; then, each optional, a fraction (a dot and
    one digit or more) and an exponent (e or E, an optional sign, one digit
    or more). *)
Definition is_digit (c : N) : bool := (48 <=? c) && (c <=? 57).

Fixpoint span_digits (s : pystr) : pystr * pystr :=
  match s with
  | c :: rest =>
      if is_digit c
      then let '(ds, r) := span_digits rest in (c :: ds, r)
      else ([], s)
  | [] => ([], [])
  end.

Definition match_integer (s : pystr) : option (pystr * pystr) :=
  match s with
  | c :: rest =>
      if c =? 48 then Some ([48], rest)
      else if is_digit c then Some (span_digits s)
      else None
  | [] => None
  end.

Definition match_frac (s : pystr) : option pystr :=
  match s with
  | c :: rest =>
      if c =? ord "." then
        match span_digits rest with
        | ([], _) => None
        | (_ :: _, r) => Some r
        end
      else None
  | [] => None
  end.

Definition match_exp (s : pystr) : option pystr :=
  match s with
  | c :: rest =>
      if (c =? ord "e") || (c =? ord "E") then
        let rest' :=
          match rest with
          | sign :: r => if (sign =? ord "-") || (sign =? ord "+") then r else rest
          | [] => rest
          end in
        match span_digits rest' with
        | ([], _) => None
        | (_ :: _, r) => Some r
        end
      else None
  | [] => None
  end.

(** The groups of a match: the sign, the digits of the integer part, whether
    a fraction or an exponent follows, and the text after the match. *)
Definition match_number (s : pystr) : option (bool * pystr * bool * pystr) :=
  let '(neg, s1) :=
    match s with
    | c :: r => if c =? ord "-" then (true, r) else (false, s)
    | [] => (false, s)
    end in
  match match_integer s1 with
  | None => None
  | Some (integer, s2) =>
      let '(frac, s3) :=
        match match_frac s2 with Some r => (true, r) | None => (false, s2) end in
      let '(exp, s4) :=
        match match_exp s3 with Some r => (true, r) | None => (false, s3) end in
      Some (neg, integer, frac || exp, s4)
  end.

Fixpoint digits_uint (ds : pystr) : Decimal.uint :=
  match ds with
  | [] => Decimal.Nil
  | c :: ds' =>
      let u := digits_uint ds' in
      match c - 48 with
      | 0 => Decimal.D0 u | 1 => Decimal.D1 u | 2 => Decimal.D2 u
      | 3 => Decimal.D3 u | 4 => Decimal.D4 u | 5 => Decimal.D5 u
      | 6 => Decimal.D6 u | 7 => Decimal.D7 u | 8 => Decimal.D8 u
      | _ => Decimal.D9 u
      end
  end.

(** [int(integer)] on the sign and the digits of a match. *)
Definition parse_int (neg : bool) (digits : pystr) : Z :=
  let n := Z.of_N (N.of_uint (digits_uint digits)) in
  if neg then (- n)%Z else n.

(** [dict(pairs)]: a later pair with a key already present replaces its
    value, at the place of the first. *)
Fixpoint dict_setitem (d : list (pystr * pyval)) (k : pystr) (v : pyval)
  : list (pystr * pyval) :=
  match d with
  | [] => [(k, v)]
  | (k', v') :: d' =>
      if decide (k' = k) then (k', v) :: d' else (k', v') :: dict_setitem d' k v
  end.

Definition dict (pairs : list (pystr * pyval)) : list (pystr * pyval) :=
  fold_left (fun d kv => dict_setitem d (fst kv) (snd kv)) pairs [].

Section containers.
(** [JSONArray] and [JSONObject] take [scan_once] as an argument. *)
Variable scan_once : pystr -> outcome (pyval * pystr).

(** The loop of [JSONArray]: [s] is at the next value. *)
Fixpoint JSONArray_loop (n : nat) (s : pystr) (values : list pyval)
  : outcome (pyval * pystr) :=
  match n with
  | O => Unmodelled Fuel
  | S n =>
    '(value, s) ← scan_once s;
    let values := values ++ [value] in
    match skip_ws s with
    | [] => Raise JSONDecodeError
    | nextchar :: s =>
        if nextchar =? ord "]" then Return (PList values, s)
        else if nextchar =? ord "," then JSONArray_loop n (skip_ws s) values
        else Raise JSONDecodeError
    end
  end.

(** [s] is the text after the opening bracket. *)
Definition JSONArray (n : nat) (s : pystr) : outcome (pyval * pystr) :=
  match skip_ws s with
  | nextchar :: s' =>
      if nextchar =? ord "]" then Return (PList [], s')
      else JSONArray_loop n (nextchar :: s') []
  | [] => JSONArray_loop n [] []
  end.

(** The loop of [JSONObject]: [s] is the text after the opening quote of
    a key. *)
Fixpoint JSONObject_loop (n : nat) (s : pystr) (pairs : list (pystr * pyval))
  : outcome (pyval * pystr) :=
  match n with
  | O => Unmodelled Fuel
  | S n =>
    '(key, s) ← py_scanstring s;
    match skip_ws s with
    | [] => Raise JSONDecodeError
    | colon :: s =>
      if colon =? ord ":" then
        '(value, s) ← scan_once (skip_ws s);
        let pairs := pairs ++ [(key, value)] in
        match skip_ws s with
        | [] => Raise JSONDecodeError
        | nextchar :: s =>
          if nextchar =? ord "}" then Return (PDict (dict pairs), s)
          else if nextchar =? ord "," then
            match skip_ws s with
            | [] => Raise JSONDecodeError
            | nextchar :: s =>
                if nextchar =? 34 then JSONObject_loop n s pairs
                else Raise JSONDecodeError
            end
          else Raise JSONDecodeError
        end
      else Raise JSONDecodeError
    end
  end.

(** [s] is the text after the opening brace. *)
Definition JSONObject (n : nat) (s : pystr) : outcome (pyval * pystr) :=
  match skip_ws s with
  | [] => Raise JSONDecodeError
  | nextchar :: s' =>
      if nextchar =? 34 then JSONObject_loop n s' []
      else if nextchar =? ord "}" then Return (PDict [], s')
      else Raise JSONDecodeError
  end.
End containers.

(** [_scan_once]; a [StopIteration] of the source becomes the
    [JSONDecodeError] that each of its callers turns it into. *)
Fixpoint scan_once (fuel : nat) (s : pystr) : outcome (pyval * pystr) :=
  match fuel with
  | O => Unmodelled Fuel
  | S fuel =>
    match s with
    | [] => Raise JSONDecodeError
    | nextchar :: rest =>
      if nextchar =? 34 then
        '(str, s') ← py_scanstring rest; Return (PStr str, s')
      else if nextchar =? ord "{" then JSONObject (scan_once fuel) fuel rest
      else if nextchar =? ord "[" then JSONArray (scan_once fuel) fuel rest
      else if startswith (str_of "null") s then Return (PNone, drop 4 s)
      else if startswith (str_of "true") s then Return (PBool true, drop 4 s)
      else if startswith (str_of "false") s then Return (PBool false, drop 5 s)
      else
        match match_number s with
        | Some (neg, integer, is_float, s') =>
            if is_float then Unmodelled FiniteFloat
            else Return (PInt (parse_int neg integer), s')
        | None =>
            if startswith (str_of "NaN") s
            then Return (PFloat NaN, drop 3 s)
            else if startswith (str_of "Infinity") s
            then Return (PFloat PosInf, drop 8 s)
            else if startswith (str_of "-Infinity") s
            then Return (PFloat NegInf, drop 9 s)
            else Raise JSONDecodeError
        end
    end
  end.

(** [json.loads]: no byte order mark; one value between optional white
    space; nothing after it. *)
Definition loads (s : pystr) : outcome pyval :=
  if startswith [65279] s then Raise JSONDecodeError
  else
    '(obj, rest) ← scan_once (S (length s)) (skip_ws s);
    match skip_ws rest with
    | [] => Return obj
    | _ :: _ => Raise JSONDecodeError
    end.

(** [json.load(fp)] is [loads(fp.read())]. *)
Definition load (fp : builtins.file) : run builtins.files pyval :=
  s <~ builtins.read fp ;; run_pure (loads s).

End json.

(** ** The JSON value model

    [json_value]: the object is made of [null], booleans, integers, strings
    of Unicode scalar values, arrays and objects, and of nothing else. The
    floats of the model are none of them: JSON has no number for them.
    [well_formed]: the keys of every dictionary are distinct, as they are in
    any [dict]. *)

Definition scalar_value (c : N) : bool :=
  (c <? 55296) || ((57343 <? c) && (c <? 1114112)).

Fixpoint json_value (v : pyval) : bool :=
  match v with
  | PNone | PBool _ | PInt _ => true
  | PFloat _ => false
  | PStr s => forallb scalar_value s
  | PList l => forallb json_value l
  | PDict d =>
      forallb (fun kv => forallb scalar_value (fst kv) && json_value (snd kv)) d
  | PObject _ => false
  end.

Fixpoint well_formed (v : pyval) : bool :=
  match v with
  | PList l => forallb well_formed l
  | PDict d =>
      bool_decide (NoDup (map fst d))
      && forallb (fun kv => well_formed (snd kv)) d
  | _ => true
  end.

(** An object of a type that the encoder has no text for occurs in [v]. *)
Fixpoint unsupported (v : pyval) : bool :=
  match v with
  | PObject _ => true
  | PList l => existsb unsupported l
  | PDict d => existsb (fun kv => unsupported (snd kv)) d
  | _ => false
  end.

(** ** cement.ext.ext_json *)

Module ext_json.

(** *** The output handler *)

(** A stream: the identity of a file object. *)
Definition stream : Type := N.

(** The part of the interpreter that [render] touches: [sys.stdout] and
    [sys.stderr], the two streams that [cement.core.backend] saved when it
    was imported, and the records of the module's logger [LOG]. *)
Record process : Type := {
  sys_stdout : stream;
  sys_stderr : stream;
  backend__saved_stdout__ : stream;
  backend__saved_stderr__ : stream;
  LOG : list pystr
}.

(** Modelled from the spec: [minimal_logger] of [cement.utils.misc] is not
    among the sources; diagnostic logging records the attempt and has no
    other effect on the call (spec, section 7). *)
Definition LOG_debug (msg : pystr) : run process unit :=
  fun p =>
    (Return tt,
     {| sys_stdout := sys_stdout p;
        sys_stderr := sys_stderr p;
        backend__saved_stdout__ := backend__saved_stdout__ p;
        backend__saved_stderr__ := backend__saved_stderr__ p;
        LOG := LOG p ++ [msg] |}).

(** [sys.stdout = value] and [sys.stderr = value]. *)
Definition assign_stdout (value : process -> stream) : run process unit :=
  fun p =>
    (Return tt,
     {| sys_stdout := value p;
        sys_stderr := sys_stderr p;
        backend__saved_stdout__ := backend__saved_stdout__ p;
        backend__saved_stderr__ := backend__saved_stderr__ p;
        LOG := LOG p |}).

Definition assign_stderr (value : process -> stream) : run process unit :=
  fun p =>
    (Return tt,
     {| sys_stdout := sys_stdout p;
        sys_stderr := value p;
        backend__saved_stdout__ := backend__saved_stdout__ p;
        backend__saved_stderr__ := backend__saved_stderr__ p;
        LOG := LOG p |}).

(** [JsonOutputHandler.render(self, data_dict, template=None)];
    [self.__module__] is ['cement.ext.ext_json']. *)
Definition render (data_dict : pyval) (template : pyval) : run process pystr :=
  LOG_debug (str_of "rendering output as Json via cement.ext.ext_json") ;;;
  assign_stdout backend__saved_stdout__ ;;;
  assign_stderr backend__saved_stderr__ ;;;
  run_pure (json.dumps data_dict).

(** *** The config handler *)

(** The configuration store of the handler: section, key, value. *)
Abbreviation store := (gmap pystr (gmap pystr pyval)).

(** What [_parse_file] works on: the files of the machine and the store of
    [self]. *)
Record world : Type := {
  files : builtins.files;
  sections : store
}.

(** A call on the files, as a call on the world. *)
Definition on_files {A : Type} (m : run builtins.files A) : run world A :=
  fun w =>
    let '(r, fs) := m (files w) in
    (r, {| files := fs; sections := sections w |}).

(** The value of a key of a section, if both exist. *)
Definition get (st : store) (section key : pystr) : option pyval :=
  st !! section ≫= fun keys => keys !! key.

(** Modelled from the spec: [ConfigParserConfigHandler.merge] of
    [cement.ext.ext_configparser] is not among the sources. It merges every
    section, key and value of the mapping into the store: a value of the
    same section and key is overwritten, other keys and other sections are
    left as they are (spec, section 4.2 and the glossary). A section whose
    value is no mapping has no keys to merge. An argument that is no
    mapping has no sections to go through: the call fails and the store is
    as before. *)
Definition merge_keys (items : list (pystr * pyval)) (keys : gmap pystr pyval)
  : gmap pystr pyval :=
  fold_left (fun m kv => <[fst kv := snd kv]> m) items keys.

Definition merge_section (st : store) (section : pystr) (value : pyval) : store :=
  match value with
  | PDict items =>
      <[section := merge_keys items (default ∅ (st !! section))]> st
  | _ => st
  end.

Definition merge_sections (secs : list (pystr * pyval)) (st : store) : store :=
  fold_left (fun st sv => merge_section st (fst sv) (snd sv)) secs st.

Definition merge (dict_obj : pyval) : run world unit :=
  fun w =>
    match dict_obj with
    | PDict secs =>
        (Return tt,
         {| files := files w; sections := merge_sections secs (sections w) |})
    | _ => (Raise AttributeError, w)
    end.

(** [JsonConfigHandler._parse_file(self, file_path)]. *)
Definition _parse_file (file_path : pystr) : run world bool :=
  fp <~ on_files (builtins.open file_path) ;;
  dict_obj <~ on_files (json.load fp) ;;
  merge dict_obj ;;;
  run_ret true.

(** *** The hook of the [--json] option *)

(** [app._meta]: the arguments of the command line and the label of the
    output handler that is selected ([None] when there is none). *)
Record meta : Type := {
  argv : list pystr;
  output_handler : pyval
}.

(** The application object, a [CementApp]: its meta-data and the output
    handler that is set up. *)
Record CementApp : Type := {
  _meta : meta;
  output : pyval
}.

Section hooks.
(** [CementApp._setup_output_handler] of [cement.core.foundation] is not
    among the sources: it is a parameter. *)
Variable _setup_output_handler : run CementApp unit.

(** [app._meta.output_handler = value]. *)
Definition assign_output_handler (value : pyval) : run CementApp unit :=
  fun a =>
    (Return tt,
     {| _meta := {| argv := argv (_meta a); output_handler := value |};
        output := output a |}).

(** [set_output_handler(app)], the [pre_run] hook. *)
Definition set_output_handler : run CementApp unit :=
  fun a =>
    if bool_decide (str_of "--json" ∈ argv (_meta a))
    then (assign_output_handler (PStr (str_of "json")) ;;;
          _setup_output_handler) a
    else (Return tt, a).
End hooks.

End ext_json.

Import builtins json ext_json.

(** ** Vocabulary of the properties

    Definitions that only the statements and the proofs use. *)

(** *** Texts and scanners *)

(** The chunks of the elements of a list and of the members of a
    dictionary, as the two inner loops of [iterencode] make them. *)
Fixpoint list_chunks (l : list pyval) : outcome (list pystr) :=
  match l with
  | [] => Return []
  | x :: l' => c ← iterencode x; cs ← list_chunks l'; Return (c :: cs)
  end.

Fixpoint dict_chunks (d : list (pystr * pyval)) : outcome (list pystr) :=
  match d with
  | [] => Return []
  | (key, value) :: d' =>
      c ← iterencode value; cs ← dict_chunks d';
      Return ((py_encode_basestring_ascii key ++ str_of ": " ++ c) :: cs)
  end.








(** A scan of [s] that is not cut short by the step bound and that consumes
    text when it returns; [good] holds of what it returns, and it leaves the
    model at a float literal only where [floats] allows it. *)
Definition scan_ok {A : Type} (floats : bool) (good : A -> Prop) (s : pystr)
  (r : outcome (A * pystr)) : Prop :=
  match r with
  | Return (a, rest) => good a /\ (length rest < length s)%nat
  | Raise _ => True
  | Unmodelled FiniteFloat => floats = true
  | Unmodelled Fuel => False
  end.

(** *** Config documents and failures *)

(** A config document: sections of keys and values. *)
Definition document (secs : list (pystr * list (pystr * pyval))) : pyval :=
  PDict (map (fun sk => (fst sk, PDict (snd sk))) secs).


(** *** Concrete inputs *)

(** A JSON text written with single quotes for the double ones. *)
Definition quoted (s : pystr) : pystr :=
  map (fun c => if c =? 39 then 34 else c) s.

Definition sample_data : list (pystr * pyval) :=
  [(str_of "name", PStr [99; 233; 109; 128512; 10]);
   (str_of "tags", PList [PInt 1; PInt (-20); PNone; PBool true; PDict []])].

Definition data_with_object : list (pystr * pyval) :=
  [(str_of "ok", PInt 1); (str_of "handle", PList [PObject 5])].

Definition data_with_nan : list (pystr * pyval) := [(str_of "x", PFloat NaN)].

(** Both streams are redirected: 7 and 8 stand for the substitutes, 1 and 2
    for the streams saved at start-up. *)
Definition sample_process : process :=
  {| sys_stdout := 7; sys_stderr := 8;
     backend__saved_stdout__ := 1; backend__saved_stderr__ := 2;
     LOG := [] |}.

(** The scenario of the spec: section A holds x = 1 and y = 2, and the file
    sets x to 9 and z to 3. *)
Definition example_path : pystr := str_of "/etc/myapp/myapp.json".

Definition example_content : pystr :=
  quoted (str_of "{'A': {'x': '9', 'z': '3'}}").

Definition example_sections : list (pystr * list (pystr * pyval)) :=
  [(str_of "A", [(str_of "x", PStr (str_of "9")); (str_of "z", PStr (str_of "3"))])].

Definition example_world : world :=
  {| files := {| disk := {[ example_path := Regular example_content ]};
                 opened := [] |};
     sections := {[ str_of "A" := {[ str_of "x" := PStr (str_of "1");
                                     str_of "y" := PStr (str_of "2") ]} ]} |}.

(** A file that is no JSON, and a path that does not exist. *)
Definition broken_path : pystr := str_of "/etc/myapp/broken.json".

Definition missing_path : pystr := str_of "/etc/myapp/missing.json".



Definition nan_content : pystr := quoted (str_of "{'A': {'x': NaN}}").

Definition nan_document : pyval :=
  PDict [(str_of "A", PDict [(str_of "x", PFloat NaN)])].


(** The host's set-up as far as the selection goes: the handler of the
    selected label becomes the output handler. *)
Definition sample_setup : run CementApp unit :=
  fun a => (Return tt, {| _meta := _meta a; output := output_handler (_meta a) |}).

Definition sample_app : CementApp :=
  {| _meta := {| argv := [str_of "--debug"; str_of "--json"];
                 output_handler := PStr (str_of "yaml") |};
     output := PStr (str_of "yaml") |}.

(** *** Vocabulary and inputs of the further properties *)

(** A printable ASCII character: from the blank to the tilde. *)
Definition printable (c : N) : bool := (32 <=? c) && (c <=? 126).

(** An application whose arguments only resemble [--json]. *)
Definition other_app : CementApp :=
  {| _meta := {| argv := [str_of "--debug"; str_of "--json=1"; str_of "json"];
                 output_handler := PStr (str_of "yaml") |};
     output := PStr (str_of "yaml") |}.

(** A set-up of the host that fails and wipes the application. *)
Definition failing_setup : run CementApp unit :=
  fun a =>
    (Raise AttributeError,
     {| _meta := {| argv := []; output_handler := PNone |}; output := PNone |}).

(** A directory where the config file should be, a file of blanks and line
    ends, a file that starts with a byte order mark, and a file with a float
    literal; one file object is open already. *)
Definition denied_world : world :=
  {| files := {| disk := {[ example_path := Denied ]};
                 opened := [{| name := broken_path |}] |};
     sections := sections example_world |}.

Definition blank_world : world :=
  {| files := {| disk := {[ example_path := Regular [32; 10; 9; 13] ]};
                 opened := [] |};
     sections := sections example_world |}.

Definition bom_world : world :=
  {| files := {| disk := {[ example_path := Regular (65279 :: example_content) ]};
                 opened := [] |};
     sections := sections example_world |}.

Definition float_world : world :=
  {| files := {| disk := {[ example_path := Regular (str_of "[1.5]") ]};
                 opened := [] |};
     sections := sections example_world |}.

(** A file that gives the key a twice. *)
Definition repeated_files : builtins.files :=
  {| disk := {[ example_path := Regular (quoted (str_of "{'a': 1, 'a': 2}")) ]};
     opened := [] |}.

(** * Properties *)

Ltac small_N d :=
  destruct d as [|d]; [try reflexivity; try lia|];
  repeat (destruct d as [d|d|]; try reflexivity; try lia).


(** ** The decoder reads back what the encoder writes *)

(** *** Strings *)














(** *** Integers *)










(** *** Containers *)

(** The text of a non-empty list and of a non-empty dictionary, with the
    inner loops named. *)
Lemma iterencode_list x l :
  iterencode (PList (x :: l))
  = (chunks ← list_chunks (x :: l);
     Return (ord "[" :: join_items chunks ++ [ord "]"])).
Proof. reflexivity. Qed.

Lemma iterencode_dict kv d :
  iterencode (PDict (kv :: d))
  = (chunks ← dict_chunks (kv :: d);
     Return (ord "{" :: join_items chunks ++ [ord "}"])).
Proof. reflexivity. Qed.







(** Two chunks or more are joined by a comma and a blank. *)
Lemma join_items_cons c c' cs :
  join_items (c :: c' :: cs) = c ++ 44 :: 32 :: join_items (c' :: cs).
Proof. reflexivity. Qed.


Section loops.
Variable scan : pystr -> outcome (pyval * pystr).



End loops.













(** ** The scanners stop, consume text and return well-formed values *)

(** A scan that is fine for a suffix is fine for the whole. *)
Lemma scan_ok_weaken {A} floats (good : A -> Prop) s s' r :
  (length s' <= length s)%nat ->
  scan_ok floats good s' r -> scan_ok floats good s r.
Proof.
  destruct r as [[a rest]|e|[]]; simpl; [intros ? []; split; [done|lia]|done..].
Qed.

(** The scanners of the parts consume text. *)
Lemma skip_ws_length s : (length (skip_ws s) <= length s)%nat.
Proof. induction s as [|c s IH]; [done|]. simpl. destruct (is_ws c); simpl; lia. Qed.

Lemma span_digits_length s :
  (length (snd (span_digits s)) <= length s)%nat.
Proof.
  induction s as [|c s IH]; [done|]. simpl. destruct (is_digit c); [|done].
  destruct (span_digits s). simpl in *. lia.
Qed.

Lemma decode_uXXXX_length s uni rest :
  decode_uXXXX s = Return (uni, rest) -> (length rest < length s)%nat.
Proof.
  destruct s as [|h1 [|h2 [|h3 [|h4 r]]]]; try discriminate. simpl.
  destruct (hex_val h1), (hex_val h2), (hex_val h3), (hex_val h4);
    try discriminate.
  intros [= _ <-]. lia.
Qed.

(** The loop of [py_scanstring] stops within the length of the text; it
    never meets a float. *)
Lemma scanstring_loop_ok fuel :
  forall s chunks,
    (length s < fuel)%nat ->
    scan_ok false (fun _ => True) s (scanstring_loop fuel s chunks)
    \/ s = [] /\ scanstring_loop fuel s chunks = Raise JSONDecodeError.
Proof.
  induction fuel as [|fuel IH]; intros s chunks Hf; [lia|].
  destruct s as [|c s1]; [by right|]. left. cbn [scanstring_loop length] in *.
  assert (Hrec : forall s' chunks',
    (length s' <= length s1)%nat ->
    scan_ok false (fun _ => True) (c :: s1) (scanstring_loop fuel s' chunks')).
  { intros s' chunks' Hs'. destruct (IH s' chunks' ltac:(lia)) as [H|[-> ->]]; [|done].
    eapply scan_ok_weaken; [|exact H]. simpl. lia. }
  destruct (c =? 34); [simpl; split; [done|lia]|].
  destruct (c =? 92).
  - destruct s1 as [|esc s2]; [done|]. destruct (esc =? 117).
    + destruct (decode_uXXXX s2) as [[uni s3]|e|g] eqn:E1; try done.
      2:{ by destruct s2 as [|? [|? [|? [|? ?]]]]; simpl in E1;
            repeat (destruct (hex_val _); try discriminate). }
      cbn [mbind outcome_bind]. apply decode_uXXXX_length in E1.
      destruct ((55296 <=? uni) && (uni <=? 56319) && startswith [92; 117] s3).
      * destruct (decode_uXXXX (drop 2 s3)) as [[uni2 s4]|e|g] eqn:E2; try done.
        2:{ by destruct (drop 2 s3) as [|? [|? [|? [|? ?]]]]; simpl in E2;
              repeat (destruct (hex_val _); try discriminate). }
        cbn [mbind outcome_bind]. apply decode_uXXXX_length in E2.
        rewrite length_drop in E2.
        destruct ((56320 <=? uni2) && (uni2 <=? 57343));
          apply Hrec; simpl in *; lia.
      * apply Hrec. simpl in *; lia.
    + destruct (BACKSLASH esc); [|done]. apply Hrec. simpl; lia.
  - destruct (c <? 32); [done|]. by apply Hrec.
Qed.

Lemma py_scanstring_ok s :
  match py_scanstring s with
  | Return (_, rest) => (length rest < length s)%nat
  | Raise _ => True
  | Unmodelled _ => False
  end.
Proof.
  unfold py_scanstring.
  destruct (scanstring_loop_ok (S (length s)) s [] ltac:(lia)) as [H|[-> ->]]; [|done].
  destruct (scanstring_loop _ _ _) as [[a rest]|e|[]]; simpl in *;
    tauto || done.
Qed.

(** Each group of [NUMBER_RE] that matches leaves no more text than it
    found. *)
Lemma match_integer_length s integer rest :
  match_integer s = Some (integer, rest) -> (length rest < length s)%nat.
Proof.
  destruct s as [|c r]; [done|]. cbn [match_integer].
  destruct (c =? 48); [intros [= _ <-]; simpl; lia|].
  destruct (is_digit c) eqn:Ed; [|done]. intros [= E].
  cbn [span_digits] in E. rewrite Ed in E.
  pose proof (span_digits_length r) as Hr. destruct (span_digits r).
  injection E as _ <-. simpl in *. lia.
Qed.

Lemma match_frac_length s rest :
  match_frac s = Some rest -> (length rest <= length s)%nat.
Proof.
  destruct s as [|c r]; [done|]. cbn [match_frac].
  destruct (c =? 46); [|done]. pose proof (span_digits_length r) as Hr.
  destruct (span_digits r) as [[|? ?] ?]; [done|]. intros [= <-]. simpl in *. lia.
Qed.

Lemma match_exp_length s rest :
  match_exp s = Some rest -> (length rest <= length s)%nat.
Proof.
  destruct s as [|c r]; [done|]. cbn [match_exp].
  destruct ((c =? 101) || (c =? 69)); [|done].
  set (r' := match r with
             | sign :: r0 => if (sign =? 45) || (sign =? 43) then r0 else r
             | [] => r
             end).
  assert (length r' <= length r)%nat.
  { subst r'. destruct r as [|sg r0]; [done|].
    destruct ((sg =? 45) || (sg =? 43)); simpl; lia. }
  pose proof (span_digits_length r') as Hr.
  destruct (span_digits r') as [[|? ?] ?]; [done|]. intros [= <-]. simpl in *. lia.
Qed.

(** A number that is matched is at least one character long. *)
Lemma match_number_length s neg integer is_float s' :
  match_number s = Some (neg, integer, is_float, s') ->
  (length s' < length s)%nat.
Proof.
  unfold match_number.
  set (p := match s with
            | c :: r => if c =? 45 then (true, r) else (false, s)
            | [] => (false, s)
            end).
  assert (Hp : (length (snd p) <= length s)%nat).
  { subst p. destruct s as [|c r]; [done|]. destruct (c =? 45); simpl; lia. }
  destruct p as [neg' s1]. cbn [snd] in Hp.
  destruct (match_integer s1) as [[integer' s2]|] eqn:Ei; [|done].
  apply match_integer_length in Ei.
  destruct (match_frac s2) as [s3|] eqn:Ef;
    [apply match_frac_length in Ef|];
    (destruct (match_exp _) as [s4|] eqn:Ee;
       [apply match_exp_length in Ee|]);
    intros [= _ _ _ <-]; lia.
Qed.

(** The keys after [dict_setitem]: the same, or one more at the end. *)
Lemma dict_setitem_keys d k v :
  map fst (dict_setitem d k v)
  = if decide (k ∈ map fst d) then map fst d else map fst d ++ [k].
Proof.
  induction d as [|[k' v'] d IH]; [done|]. cbn [dict_setitem map fst].
  destruct (decide (k' = k)) as [->|Hne].
  - rewrite decide_True by left. done.
  - cbn [map fst]. rewrite IH. destruct (decide (k ∈ map fst d)) as [Hin|Hnin].
    + by rewrite decide_True by (by right).
    + rewrite decide_False; [done|]. intros [?|?]%elem_of_cons; congruence.
Qed.

Lemma dict_setitem_NoDup d k v :
  NoDup (map fst d) -> NoDup (map fst (dict_setitem d k v)).
Proof.
  intros H. rewrite dict_setitem_keys. destruct (decide (k ∈ map fst d)); [done|].
  apply NoDup_app. split; [done|]. split; [|apply NoDup_singleton].
  intros x Hx ->%list_elem_of_singleton. done.
Qed.

Lemma dict_setitem_values (P : pyval -> bool) d k v :
  forallb (fun kv => P (snd kv)) d = true -> P v = true ->
  forallb (fun kv => P (snd kv)) (dict_setitem d k v) = true.
Proof.
  intros Hd Hv. induction d as [|[k' v'] d IH]; [simpl; by rewrite Hv|].
  cbn [dict_setitem forallb snd] in *. apply andb_true_iff in Hd as [H1 H2].
  destruct (decide (k' = k)); cbn [forallb snd].
  - by rewrite Hv, H2.
  - by rewrite H1, IH.
Qed.

(** [dict] makes a well-formed dictionary of well-formed values. *)
Lemma dict_well_formed pairs :
  forallb (fun kv => well_formed (snd kv)) pairs = true ->
  well_formed (PDict (dict pairs)) = true.
Proof.
  intros H. unfold dict.
  assert (Hgen : forall acc,
    well_formed (PDict acc) = true ->
    well_formed (PDict (fold_left (fun d kv => dict_setitem d (fst kv) (snd kv))
                          pairs acc)) = true).
  { induction pairs as [|[k v] pairs IH]; intros acc Hacc; [done|].
    cbn [forallb snd] in H. apply andb_true_iff in H as [Hv Hp].
    cbn [fold_left]. apply IH; [done|]. cbn [well_formed] in *.
    apply andb_true_iff in Hacc as [Hnd Hvals]. apply bool_decide_eq_true in Hnd.
    apply andb_true_iff. split.
    - apply bool_decide_eq_true. by apply dict_setitem_NoDup.
    - by apply dict_setitem_values. }
  by apply Hgen.
Qed.

Section loops_ok.
Variable scan : pystr -> outcome (pyval * pystr).
Variable bound : nat.
Hypothesis scan_bound :
  forall s, (length s < bound)%nat ->
    scan_ok true (fun v => well_formed v = true) s (scan s).

(** The loops of the containers stop within the length of the text and
    return well-formed values, given a scanner that does. *)
Lemma JSONArray_loop_ok n :
  forall s values,
    (length s < n)%nat -> (n <= bound)%nat ->
    forallb well_formed values = true ->
    scan_ok true (fun v => well_formed v = true) s
      (JSONArray_loop scan n s values).
Proof.
  induction n as [|n IH]; intros s values Hn Hb Hvals; [lia|].
  cbn [JSONArray_loop]. pose proof (scan_bound s ltac:(lia)) as Hs.
  destruct (scan s) as [[value s1]|e|[]]; try done.
  cbn [mbind outcome_bind]. destruct Hs as [Hv Hs1].
  assert (Hvals' : forallb well_formed (values ++ [value]) = true).
  { rewrite forallb_app. cbn. by rewrite Hvals, Hv. }
  pose proof (skip_ws_length s1) as Hw.
  destruct (skip_ws s1) as [|c s2]; [done|]. cbn [length] in Hw.
  destruct (c =? 93); [split; [done|lia]|].
  destruct (c =? 44); [|done].
  pose proof (skip_ws_length s2) as Hw2.
  eapply scan_ok_weaken; [|apply IH; [lia|lia|done]]. lia.
Qed.

Lemma JSONArray_ok n s c :
  (length s < n)%nat -> (n <= bound)%nat ->
  scan_ok true (fun v => well_formed v = true) (c :: s) (JSONArray scan n s).
Proof.
  intros Hn Hb. unfold JSONArray. pose proof (skip_ws_length s) as Hw.
  destruct (skip_ws s) as [|c' s'].
  - eapply scan_ok_weaken; [|apply JSONArray_loop_ok; [simpl; lia|done|done]].
    simpl; lia.
  - cbn [length] in Hw. destruct (c' =? 93); [split; [done|simpl; lia]|].
    eapply scan_ok_weaken; [|apply JSONArray_loop_ok; [simpl; lia|done|done]].
    simpl; lia.
Qed.

Lemma JSONObject_loop_ok n :
  forall s pairs,
    (length s < n)%nat -> (n <= bound)%nat ->
    forallb (fun kv => well_formed (snd kv)) pairs = true ->
    scan_ok true (fun v => well_formed v = true) s
      (JSONObject_loop scan n s pairs).
Proof.
  induction n as [|n IH]; intros s pairs Hn Hb Hpairs; [lia|].
  cbn [JSONObject_loop]. pose proof (py_scanstring_ok s) as Hs.
  destruct (py_scanstring s) as [[key s1]|e|g]; [|done|done].
  cbn [mbind outcome_bind].
  pose proof (skip_ws_length s1) as Hw1.
  destruct (skip_ws s1) as [|colon s2]; [done|]. cbn [length] in Hw1.
  destruct (colon =? 58); [|done].
  pose proof (skip_ws_length s2) as Hw2.
  pose proof (scan_bound (skip_ws s2) ltac:(lia)) as Hv.
  destruct (scan (skip_ws s2)) as [[value s3]|e|[]]; try done.
  cbn [mbind outcome_bind]. destruct Hv as [Hv Hs3].
  assert (Hpairs' : forallb (fun kv => well_formed (snd kv))
                      (pairs ++ [(key, value)]) = true).
  { rewrite forallb_app. cbn. by rewrite Hpairs, Hv. }
  pose proof (skip_ws_length s3) as Hw3.
  destruct (skip_ws s3) as [|c s4]; [done|]. cbn [length] in Hw3.
  destruct (c =? 125); [split; [by apply dict_well_formed|lia]|].
  destruct (c =? 44); [|done].
  pose proof (skip_ws_length s4) as Hw4.
  destruct (skip_ws s4) as [|q s5]; [done|]. cbn [length] in Hw4.
  destruct (q =? 34); [|done].
  eapply scan_ok_weaken; [|apply (IH s5 (pairs ++ [(key, value)])); [lia|lia|done]].
  lia.
Qed.

Lemma JSONObject_ok n s c :
  (length s < n)%nat -> (n <= bound)%nat ->
  scan_ok true (fun v => well_formed v = true) (c :: s) (JSONObject scan n s).
Proof.
  intros Hn Hb. unfold JSONObject. pose proof (skip_ws_length s) as Hw.
  destruct (skip_ws s) as [|c' s']; [done|]. cbn [length] in Hw.
  destruct (c' =? 34).
  - eapply scan_ok_weaken; [|apply JSONObject_loop_ok; [lia|done|done]].
    simpl; lia.
  - destruct (c' =? 125); [|done]. split; [done|simpl; lia].
Qed.
End loops_ok.

(** [scan_once] with more fuel than text is never cut short, consumes text
    and returns a well-formed value. *)
Lemma scan_once_ok fuel :
  forall s, (length s < fuel)%nat ->
    scan_ok true (fun v => well_formed v = true) s (scan_once fuel s).
Proof.
  induction fuel as [|fuel IH]; intros s Hf; [lia|].
  destruct s as [|c rest]; [done|]. cbn [length] in Hf.
  cbn [scan_once].
  destruct (c =? 34).
  { pose proof (py_scanstring_ok rest) as Hs.
    destruct (py_scanstring rest) as [[str s']|e|g]; [|done|done].
    split; [done|simpl; lia]. }
  destruct (c =? 123); [apply (JSONObject_ok _ fuel); [done|lia|lia]|].
  destruct (c =? 91); [apply (JSONArray_ok _ fuel); [done|lia|lia]|].
  assert (Hdrop : forall n, (0 < n)%nat ->
            (length (drop n (c :: rest)) < length (c :: rest))%nat).
  { intros n Hn. rewrite length_drop. simpl. lia. }
  destruct (startswith [110; 117; 108; 108] (c :: rest));
    [split; [done|apply Hdrop; lia]|].
  destruct (startswith [116; 114; 117; 101] (c :: rest));
    [split; [done|apply Hdrop; lia]|].
  destruct (startswith [102; 97; 108; 115; 101] (c :: rest));
    [split; [done|apply Hdrop; lia]|].
  destruct (match_number (c :: rest)) as [[[[neg integer] is_float] s']|] eqn:Em.
  - destruct is_float; [done|]. split; [done|by eapply match_number_length].
  - repeat match goal with
      | |- context [if ?b then _ else _] =>
          destruct b; [split; [done|apply Hdrop; lia]|]
      end.
    done.
Qed.

(** [json.loads] is never cut short by the step bound of the model. *)
Lemma loads_stops s : loads s <> Unmodelled Fuel.
Proof.
  unfold loads. destruct (startswith [65279] s); [done|].
  pose proof (skip_ws_length s) as Hw.
  pose proof (scan_once_ok (S (length s)) (skip_ws s) ltac:(lia)) as H.
  destruct (scan_once _ _) as [[obj rest]|e|[]]; try done.
  cbn [mbind outcome_bind]. by destruct (skip_ws rest).
Qed.

(** What [json.loads] returns is well formed. *)
Lemma loads_well_formed s v : loads s = Return v -> well_formed v = true.
Proof.
  unfold loads. destruct (startswith [65279] s); [done|].
  pose proof (skip_ws_length s) as Hw.
  pose proof (scan_once_ok (S (length s)) (skip_ws s) ltac:(lia)) as H.
  destruct (scan_once _ _) as [[obj rest]|e|[]]; try done.
  cbn [mbind outcome_bind]. destruct (skip_ws rest); [|done].
  intros [= <-]. apply H.
Qed.

(** ** The encoder rejects exactly the objects of unsupported types *)

(** The encoder raises [TypeError] when the object contains one of an
    unsupported type, and returns a text when it does not. *)
Lemma iterencode_unsupported v :
  if unsupported v
  then iterencode v = Raise TypeError
  else exists enc, iterencode v = Return enc.
Proof.
  induction v as [|b|z|f|s|l IH|d IH|id] using pyval_nested_ind;
    cbn [unsupported]; try (eexists; reflexivity); try reflexivity.
  - destruct b; eexists; reflexivity.
  - destruct l as [|x l]; [eexists; reflexivity|]. rewrite iterencode_list.
    assert (H : if existsb unsupported (x :: l)
                then list_chunks (x :: l) = Raise TypeError
                else exists cs, list_chunks (x :: l) = Return cs).
    { clear -IH. induction IH as [|y l' Hy Hl IH']; [by eexists|].
      cbn [existsb list_chunks]. destruct (unsupported y).
      - by rewrite Hy.
      - destruct Hy as [c ->]. cbn [orb mbind outcome_bind].
        destruct (existsb unsupported l').
        + by rewrite IH'.
        + destruct IH' as [cs ->]. by eexists. }
    destruct (existsb unsupported (x :: l)).
    + by rewrite H.
    + destruct H as [cs ->]. by eexists.
  - destruct d as [|kv d]; [eexists; reflexivity|]. rewrite iterencode_dict.
    assert (H : if existsb (fun kv => unsupported (snd kv)) (kv :: d)
                then dict_chunks (kv :: d) = Raise TypeError
                else exists cs, dict_chunks (kv :: d) = Return cs).
    { clear -IH. induction IH as [|[k y] l' Hy Hl IH']; [by eexists|].
      cbn [existsb dict_chunks snd] in *. destruct (unsupported y).
      - by rewrite Hy.
      - destruct Hy as [c ->]. cbn [orb mbind outcome_bind].
        destruct (existsb _ l').
        + by rewrite IH'.
        + destruct IH' as [cs ->]. by eexists. }
    destruct (existsb _ (kv :: d)).
    + by rewrite H.
    + destruct H as [cs ->]. by eexists.
Qed.

Lemma dumps_unsupported v : unsupported v = true -> json.dumps v = Raise TypeError.
Proof. intros H. pose proof (iterencode_unsupported v) as Hv. by rewrite H in Hv. Qed.

Lemma dumps_supported v :
  unsupported v = false -> exists s, json.dumps v = Return s.
Proof. intros H. pose proof (iterencode_unsupported v) as Hv. by rewrite H in Hv. Qed.

(** ** [render] *)

(** [render] spelled out: the text or the exception of [json.dumps], and the
    state with both streams reset and one more record in the log. *)
Lemma render_unfold data_dict template p :
  render data_dict template p
  = (json.dumps data_dict,
     {| sys_stdout := backend__saved_stdout__ p;
        sys_stderr := backend__saved_stderr__ p;
        backend__saved_stdout__ := backend__saved_stdout__ p;
        backend__saved_stderr__ := backend__saved_stderr__ p;
        LOG := LOG p ++ [str_of "rendering output as Json via cement.ext.ext_json"] |}).
Proof. reflexivity. Qed.



(** C7. After every call of [render], whatever it was given and whether it
    returns or raises, [sys.stdout] and [sys.stderr] are the streams that
    [backend] saved, whatever they were before. *)
Theorem render_restores_streams (data_dict template : pyval) (p : process) :
  sys_stdout (snd (render data_dict template p)) = backend__saved_stdout__ p
  /\ sys_stderr (snd (render data_dict template p)) = backend__saved_stderr__ p.
Proof. by rewrite render_unfold. Qed.

(** C8. The template is ignored: two calls of [render] that differ in the
    template only have the same outcome and leave the same state. *)
Theorem render_ignores_template (D t1 t2 : pyval) (p : process) :
  render D t1 p = render D t2 p.
Proof. reflexivity. Qed.

(** C4, as stated, fails: a data dictionary with the float NaN, which is no
    JSON value, is not rejected. [render] returns a text with the token
    [NaN] in it. *)
Lemma render_nan_not_rejected :
  json_value (PDict data_with_nan) = false
  /\ fst (render (PDict data_with_nan) PNone sample_process)
     = Return ([123; 34] ++ str_of "x" ++ [34] ++ str_of ": NaN}").
Proof. split; reflexivity. Qed.

(** C4, amended. For every data dictionary that contains an object of a
    type the encoder does not support, [render] produces no string: its
    outcome is the outcome of [json.dumps], unchanged, and that is the
    exception [TypeError]. *)
Theorem render_rejects_unsupported (D : list (pystr * pyval)) (template : pyval)
  (p : process) :
  unsupported (PDict D) = true ->
  fst (render (PDict D) template p) = json.dumps (PDict D)
  /\ json.dumps (PDict D) = Raise TypeError.
Proof.
  intros H. rewrite render_unfold. split; [done|by apply dumps_unsupported].
Qed.

Lemma render_rejects_unsupported_witness :
  fst (render (PDict data_with_object) PNone sample_process)
  = json.dumps (PDict data_with_object)
  /\ json.dumps (PDict data_with_object) = Raise TypeError.
Proof.
  apply (render_rejects_unsupported data_with_object PNone sample_process).
  reflexivity.
Defined.

(** C10. The streams are reset before the text is made: when [render]
    raises [TypeError] for a data dictionary with an unsupported object,
    [sys.stdout] and [sys.stderr] are the saved streams all the same. *)
Theorem render_error_after_restore (D : list (pystr * pyval))
  (template : pyval) (p : process) :
  unsupported (PDict D) = true ->
  fst (render (PDict D) template p) = Raise TypeError
  /\ sys_stdout (snd (render (PDict D) template p)) = backend__saved_stdout__ p
  /\ sys_stderr (snd (render (PDict D) template p)) = backend__saved_stderr__ p.
Proof.
  intros H. rewrite render_unfold. cbn [fst snd sys_stdout sys_stderr].
  by rewrite dumps_unsupported.
Qed.

Lemma render_error_after_restore_witness :
  fst (render (PDict data_with_object) PNone sample_process) = Raise TypeError
  /\ sys_stdout (snd (render (PDict data_with_object) PNone sample_process)) = 1
  /\ sys_stderr (snd (render (PDict data_with_object) PNone sample_process)) = 2.
Proof.
  apply (render_error_after_restore data_with_object PNone sample_process).
  reflexivity.
Defined.

(** ** [_parse_file] *)

(** [_parse_file] spelled out, case by case. *)
Lemma parse_file_unfold file_path w :
  _parse_file file_path w
  = match disk (files w) !! file_path with
    | Some (Regular content) =>
        let fs := {| disk := disk (files w);
                     opened := opened (files w) ++ [{| name := file_path |}] |} in
        match json.loads content with
        | Return dict_obj =>
            match merge dict_obj {| files := fs; sections := sections w |} with
            | (Return _, w') => (Return true, w')
            | (Raise e, w') => (Raise e, w')
            | (Unmodelled g, w') => (Unmodelled g, w')
            end
        | Raise e => (Raise e, {| files := fs; sections := sections w |})
        | Unmodelled g => (Unmodelled g, {| files := fs; sections := sections w |})
        end
    | Some Denied | None => (Raise IOError, w)
    end.
Proof.
  unfold _parse_file, run_bind, on_files, builtins.open, json.load, run_bind,
    builtins.read, run_pure, run_ret.
  destruct w as [[dk op] st]. cbn [files disk opened name sections].
  destruct (dk !! file_path) as [[content|]|] eqn:E; cbn [name disk]; try done.
  cbn [files disk opened name sections]. rewrite E.
  by destruct (json.loads content) as [dict_obj|e|g].
Qed.

Lemma merge_unfold dict_obj w :
  merge dict_obj w
  = match dict_obj with
    | PDict secs =>
        (Return tt,
         {| files := files w; sections := merge_sections secs (sections w) |})
    | _ => (Raise AttributeError, w)
    end.
Proof. reflexivity. Qed.

(** Merging the items of a section: a key that is not among them keeps its
    value, a key that is among them gets the value of the item. *)
Lemma merge_keys_other items keys k :
  k ∉ map fst items -> merge_keys items keys !! k = keys !! k.
Proof.
  unfold merge_keys. revert keys.
  induction items as [|[k' v'] items IH]; intros keys Hk; [done|].
  cbn [map fst] in Hk. apply not_elem_of_cons in Hk as [Hne Hk].
  cbn [fold_left fst snd]. rewrite IH by done. by rewrite lookup_insert_ne.
Qed.

Lemma merge_keys_item items keys k v :
  NoDup (map fst items) -> (k, v) ∈ items ->
  merge_keys items keys !! k = Some v.
Proof.
  unfold merge_keys. revert keys.
  induction items as [|[k' v'] items IH]; intros keys Hnd Hin;
    [by apply elem_of_nil in Hin|].
  cbn [map fst] in Hnd. apply NoDup_cons in Hnd as [Hk' Hnd].
  cbn [fold_left fst snd]. apply elem_of_cons in Hin as [[= -> ->]|Hin].
  - fold (merge_keys items (<[k':=v']> keys)).
    rewrite merge_keys_other by done. apply lookup_insert_eq.
  - by apply IH.
Qed.

(** Merging the sections of a document: a section that is not in it stays
    as it is, a section that is in it is the old one with the items merged. *)
Lemma merge_sections_other secs st s :
  s ∉ map fst secs -> merge_sections secs st !! s = st !! s.
Proof.
  unfold merge_sections. revert st.
  induction secs as [|[s' v'] secs IH]; intros st Hs; [done|].
  cbn [map fst] in Hs. apply not_elem_of_cons in Hs as [Hne Hs].
  cbn [fold_left fst snd]. rewrite IH by done. unfold merge_section.
  destruct v'; try done. by rewrite lookup_insert_ne.
Qed.

Lemma merge_sections_section secs st s items :
  NoDup (map fst secs) -> (s, PDict items) ∈ secs ->
  merge_sections secs st !! s
  = Some (merge_keys items (default ∅ (st !! s))).
Proof.
  unfold merge_sections. revert st.
  induction secs as [|[s' v'] secs IH]; intros st Hnd Hin;
    [by apply elem_of_nil in Hin|].
  cbn [map fst] in Hnd. apply NoDup_cons in Hnd as [Hs' Hnd].
  cbn [fold_left fst snd]. apply elem_of_cons in Hin as [[= <- <-]|Hin].
  - fold (merge_sections secs (merge_section st s (PDict items))).
    rewrite merge_sections_other by done. apply lookup_insert_eq.
  - assert (s <> s').
    { intros ->. apply Hs'. apply list_elem_of_fmap. by exists (s', PDict items). }
    rewrite IH by done. unfold merge_section.
    destruct v'; try done. by rewrite lookup_insert_ne.
Qed.

(** The sections of a decoded document are distinct, and so are the keys of
    each section. *)
Lemma document_well_formed secs :
  well_formed (document secs) = true ->
  NoDup (map fst secs)
  /\ Forall (fun sk => NoDup (map fst (snd sk))) secs.
Proof.
  unfold document. cbn [well_formed]. rewrite map_map. cbn [fst].
  intros [Hnd Hall]%andb_true_iff. apply bool_decide_eq_true in Hnd.
  split; [done|]. clear Hnd. induction secs as [|[s items] secs IH]; [constructor|].
  cbn [map forallb snd well_formed] in Hall.
  apply andb_true_iff in Hall as [Hitems Hall].
  apply andb_true_iff in Hitems as [Hitems _]. apply bool_decide_eq_true in Hitems.
  constructor; [done|by apply IH].
Qed.

(** C2. For every store and every file whose content decodes to a document
    of sections of keys and values, [_parse_file] returns [True], and in the
    store it leaves: every key of every section of the file has the value
    from the file, whatever it had before; the other keys of those sections
    are as before; the other sections are as before. The scenario of the
    spec is the witness. *)
Theorem parse_file_merges (w : world) (file_path content : pystr)
  (secs : list (pystr * list (pystr * pyval))) :
  disk (files w) !! file_path = Some (Regular content) ->
  json.loads content = Return (document secs) ->
  fst (_parse_file file_path w) = Return true
  /\ (forall s items k v,
        (s, items) ∈ secs -> (k, v) ∈ items ->
        get (sections (snd (_parse_file file_path w))) s k = Some v)
  /\ (forall s items k,
        (s, items) ∈ secs -> k ∉ map fst items ->
        get (sections (snd (_parse_file file_path w))) s k
        = get (sections w) s k)
  /\ (forall s,
        s ∉ map fst secs ->
        sections (snd (_parse_file file_path w)) !! s = sections w !! s).
Proof.
  intros Hdisk Hloads.
  destruct (document_well_formed secs (loads_well_formed _ _ Hloads))
    as [Hsecs Hitems].
  rewrite parse_file_unfold, Hdisk, Hloads. cbv zeta. unfold document.
  rewrite merge_unfold. cbn [fst snd sections].
  set (secs' := map (fun sk => (fst sk, PDict (snd sk))) secs).
  assert (Hkeys : map fst secs' = map fst secs).
  { unfold secs'. by rewrite map_map. }
  assert (Hsec : forall s items, (s, items) ∈ secs ->
            merge_sections secs' (sections w) !! s
            = Some (merge_keys items (default ∅ (sections w !! s)))).
  { intros s items Hin. apply merge_sections_section; [by rewrite Hkeys|].
    unfold secs'. apply list_elem_of_fmap. by exists (s, items). }
  split; [done|]. split; [|split].
  - intros s items k v Hs Hk. unfold get. rewrite (Hsec s items Hs). cbn.
    apply merge_keys_item; [|done].
    by apply (proj1 (Forall_forall _ _) Hitems (s, items)).
  - intros s items k Hs Hk. unfold get. rewrite (Hsec s items Hs). cbn.
    rewrite merge_keys_other by done. by destruct (sections w !! s).
  - intros s Hs. apply merge_sections_other. by rewrite Hkeys.
Qed.

Lemma parse_file_merges_witness :
  let st' := sections (snd (_parse_file example_path example_world)) in
  fst (_parse_file example_path example_world) = Return true
  /\ get st' (str_of "A") (str_of "x") = Some (PStr (str_of "9"))
  /\ get st' (str_of "A") (str_of "y") = Some (PStr (str_of "2"))
  /\ get st' (str_of "A") (str_of "z") = Some (PStr (str_of "3")).
Proof.
  destruct (parse_file_merges example_world example_path example_content
              example_sections) as (Hret & Hset & Hkeep & _);
    [reflexivity|reflexivity|].
  assert (HA : (str_of "A", snd (hd ([], []) example_sections))
               ∈ example_sections) by apply list_elem_of_here.
  cbv zeta. split; [exact Hret|]. split; [|split].
  - apply (Hset _ _ _ _ HA). apply list_elem_of_here.
  - rewrite (Hkeep _ _ (str_of "y") HA); [reflexivity|].
    cbn. rewrite !elem_of_cons, elem_of_nil. intros [?|[?|[]]]; discriminate.
  - apply (Hset _ _ _ _ HA). apply list_elem_of_further, list_elem_of_here.
Defined.




(** C5. Whenever [_parse_file] returns, it returns [True]: no path returns
    [False]. *)
Theorem parse_file_returns_true (w : world) (file_path : pystr) (b : bool) :
  fst (_parse_file file_path w) = Return b -> b = true.
Proof.
  rewrite parse_file_unfold.
  destruct (disk (files w) !! file_path) as [[content|]|]; [|done|done].
  cbv zeta. destruct (json.loads content) as [dict_obj|e|g]; [|done|done].
  rewrite merge_unfold. destruct dict_obj; try done. by intros [= <-].
Qed.

Lemma parse_file_returns_true_witness :
  fst (_parse_file example_path example_world) = Return true /\ true = true.
Proof.
  assert (H : fst (_parse_file example_path example_world) = Return true)
    by reflexivity.
  split; [exact H|].
  exact (parse_file_returns_true example_world example_path true H).
Defined.




(** ** [set_output_handler] *)

(** C6. If [--json] is among the arguments, then after the hook the
    selected output handler is [json], whatever was selected before. The
    set-up of the host, which the hook calls after the assignment, is any
    function that leaves the meta-data alone. *)
Theorem set_output_handler_json (_setup_output_handler : run CementApp unit)
  (a : CementApp) :
  (forall a', _meta (snd (_setup_output_handler a')) = _meta a') ->
  str_of "--json" ∈ argv (_meta a) ->
  output_handler (_meta (snd (set_output_handler _setup_output_handler a)))
  = PStr (str_of "json").
Proof.
  intros Hsetup Hflag. unfold set_output_handler.
  rewrite bool_decide_eq_true_2 by done.
  unfold run_bind, assign_output_handler.
  match goal with |- context [_setup_output_handler ?x] =>
    pose proof (Hsetup x) as H;
    destruct (_setup_output_handler x) as [[u|e|g] a']
  end; cbn [snd] in *; by rewrite H.
Qed.

Lemma set_output_handler_json_witness :
  output_handler (_meta (snd (set_output_handler sample_setup sample_app)))
  = PStr (str_of "json").
Proof.
  apply (set_output_handler_json sample_setup sample_app).
  - intros a'. reflexivity.
  - cbn. apply list_elem_of_further, list_elem_of_here.
Defined.

(** * Further properties *)

(** ** The text of [render] is printable ASCII *)

Lemma hex_char_printable d : d < 16 -> printable (hex_char d) = true.
Proof. intros H. small_N d. Qed.

Lemma u_escape_printable n : forallb printable (u_escape n) = true.
Proof.
  unfold u_escape. cbn [forallb].
  rewrite !hex_char_printable by (apply N.mod_lt; discriminate). reflexivity.
Qed.

Lemma replace_printable c : forallb printable (replace c) = true.
Proof.
  unfold replace.
  repeat (match goal with
          | |- context [if N.eqb c ?k then _ else _] =>
              destruct (N.eqb c k); [reflexivity|]
          end).
  destruct ((32 <=? c) && (c <=? 126)) eqn:E;
    [cbn [forallb]; unfold printable; by rewrite E|].
  destruct (c <? 65536); [apply u_escape_printable|].
  cbv zeta. rewrite forallb_app, !u_escape_printable. reflexivity.
Qed.

Lemma flat_map_replace_printable s :
  forallb printable (flat_map replace s) = true.
Proof.
  induction s as [|c s IH]; [done|]. cbn [flat_map].
  by rewrite forallb_app, replace_printable, IH.
Qed.

Lemma basestring_printable s :
  forallb printable (py_encode_basestring_ascii s) = true.
Proof.
  unfold py_encode_basestring_ascii. cbn [forallb].
  rewrite forallb_app, flat_map_replace_printable. reflexivity.
Qed.

Lemma uint_digits_printable u : forallb printable (uint_digits u) = true.
Proof. induction u; cbn [uint_digits forallb]; rewrite ?IHu; reflexivity. Qed.

Lemma int_repr_printable z : forallb printable (int_repr z) = true.
Proof.
  destruct z; cbn [int_repr forallb]; rewrite ?uint_digits_printable;
    reflexivity.
Qed.

Lemma join_items_printable chunks :
  Forall (fun c => forallb printable c = true) chunks ->
  forallb printable (join_items chunks) = true.
Proof.
  induction 1 as [|c cs Hc Hcs IH]; [done|]. destruct cs as [|c' cs]; [done|].
  rewrite join_items_cons, forallb_app, Hc. cbn [forallb andb].
  repeat (apply andb_true_intro; split; [reflexivity|]). exact IH.
Qed.

Lemma iterencode_printable v :
  forall enc, iterencode v = Return enc -> forallb printable enc = true.
Proof.
  induction v as [|b|z|f|s|l IH|d IH|id] using pyval_nested_ind; intros enc.
  - by intros [= <-].
  - destruct b; by intros [= <-].
  - intros [= <-]. apply int_repr_printable.
  - destruct f; by intros [= <-].
  - intros [= <-]. apply basestring_printable.
  - destruct l as [|x l]; [by intros [= <-]|]. rewrite iterencode_list.
    assert (H : forall chunks, list_chunks (x :: l) = Return chunks ->
                Forall (fun c => forallb printable c = true) chunks).
    { clear enc. induction IH as [|y l' Hy Hl IH']; intros chunks.
      - intros [= <-]. constructor.
      - cbn [list_chunks]. destruct (iterencode y) as [c| |]; try done.
        cbn [mbind outcome_bind].
        destruct (list_chunks l') as [cs| |]; try done.
        intros [= <-]. constructor; [by apply Hy|by apply IH']. }
    destruct (list_chunks (x :: l)) as [chunks| |]; try done.
    intros [= <-]. cbn [forallb]. rewrite forallb_app, join_items_printable by auto.
    reflexivity.
  - destruct d as [|kv d]; [by intros [= <-]|]. rewrite iterencode_dict.
    assert (H : forall chunks, dict_chunks (kv :: d) = Return chunks ->
                Forall (fun c => forallb printable c = true) chunks).
    { clear enc. induction IH as [|[k y] l' Hy Hl IH']; intros chunks.
      - intros [= <-]. constructor.
      - cbn [dict_chunks snd] in *. destruct (iterencode y) as [c| |]; try done.
        cbn [mbind outcome_bind].
        destruct (dict_chunks l') as [cs| |]; try done.
        intros [= <-]. constructor; [|by apply IH'].
        cbn beta. cbn [forallb].
        rewrite !forallb_app, flat_map_replace_printable.
        cbn [forallb]. rewrite (Hy c eq_refl). reflexivity. }
    destruct (dict_chunks (kv :: d)) as [chunks| |]; try done.
    intros [= <-]. cbn [forallb]. rewrite forallb_app, join_items_printable by auto.
    reflexivity.
  - done.
Qed.

(** X1. Whatever [render] returns is printable ASCII: every character of
    the text lies between the blank and the tilde, so the text is one line
    and has no control character and nothing beyond ASCII in it. *)
Theorem render_text_printable (data_dict template : pyval) (p : process)
  (s : pystr) :
  fst (render data_dict template p) = Return s ->
  forallb printable s = true.
Proof. rewrite render_unfold. apply iterencode_printable. Qed.

Lemma render_text_printable_witness :
  exists s,
    fst (render (PDict sample_data) PNone sample_process) = Return s
    /\ forallb printable s = true.
Proof.
  eexists. split; [reflexivity|].
  apply (render_text_printable (PDict sample_data) PNone sample_process).
  reflexivity.
Defined.





(** X4. [render] reads the saved streams and never writes them, so a second
    call changes no stream: after two calls, with any data, both streams and
    both saved streams are what they were after the first. *)
Theorem render_twice (d1 t1 d2 t2 : pyval) (p : process) :
  let p1 := snd (render d1 t1 p) in
  let p2 := snd (render d2 t2 p1) in
  backend__saved_stdout__ p1 = backend__saved_stdout__ p
  /\ backend__saved_stderr__ p1 = backend__saved_stderr__ p
  /\ sys_stdout p2 = sys_stdout p1
  /\ sys_stderr p2 = sys_stderr p1
  /\ backend__saved_stdout__ p2 = backend__saved_stdout__ p1
  /\ backend__saved_stderr__ p2 = backend__saved_stderr__ p1.
Proof. cbv zeta. by rewrite !render_unfold. Qed.

(** ** More about [_parse_file] *)

(** X5. When the path is missing or cannot be opened, [_parse_file] raises
    [IOError] and leaves no trace: the store, the files and the file objects
    that are open are all as before. *)
Theorem parse_file_cannot_open (w : world) (file_path : pystr) :
  disk (files w) !! file_path = None
  \/ disk (files w) !! file_path = Some Denied ->
  _parse_file file_path w = (Raise IOError, w).
Proof. intros H. rewrite parse_file_unfold. by destruct H as [-> | ->]. Qed.

Lemma parse_file_cannot_open_witness :
  _parse_file missing_path denied_world = (Raise IOError, denied_world)
  /\ _parse_file example_path denied_world = (Raise IOError, denied_world).
Proof.
  split.
  - apply (parse_file_cannot_open denied_world missing_path). left. reflexivity.
  - apply (parse_file_cannot_open denied_world example_path). right. reflexivity.
Defined.

Lemma skip_ws_blank s : forallb is_ws s = true -> skip_ws s = [].
Proof.
  induction s as [|c s IH]; [done|]. cbn [forallb skip_ws].
  intros [Hc Hs]%andb_true_iff. rewrite Hc. by apply IH.
Qed.

Lemma loads_blank s : forallb is_ws s = true -> loads s = Raise JSONDecodeError.
Proof.
  intros H. unfold loads. rewrite (skip_ws_blank s H).
  destruct s as [|c s]; [reflexivity|]. cbn [startswith forallb] in *.
  apply andb_true_iff in H as [Hc _].
  destruct (N.eqb_spec 65279 c) as [<-|_]; [discriminate Hc|]. reflexivity.
Qed.

(** X6. An empty file, a file of white space only and a file that starts
    with a byte order mark are no configuration: [_parse_file] raises the
    parse error of the decoder and the store is as before. *)
Theorem parse_file_blank_or_bom (w : world) (file_path content : pystr) :
  disk (files w) !! file_path = Some (Regular content) ->
  forallb is_ws content = true \/ startswith [65279] content = true ->
  fst (_parse_file file_path w) = Raise JSONDecodeError
  /\ sections (snd (_parse_file file_path w)) = sections w.
Proof.
  intros Hdisk H. rewrite parse_file_unfold, Hdisk. cbv zeta.
  assert (Hl : json.loads content = Raise JSONDecodeError).
  { destruct H as [H|H]; [by apply loads_blank|]. unfold json.loads. by rewrite H. }
  by rewrite Hl.
Qed.

Lemma parse_file_blank_or_bom_witness :
  (fst (_parse_file example_path blank_world) = Raise JSONDecodeError
   /\ sections (snd (_parse_file example_path blank_world))
      = sections blank_world)
  /\ (fst (_parse_file example_path bom_world) = Raise JSONDecodeError
      /\ sections (snd (_parse_file example_path bom_world))
         = sections bom_world).
Proof.
  split.
  - apply (parse_file_blank_or_bom blank_world example_path [32; 10; 9; 13]);
      [reflexivity|left; reflexivity].
  - apply (parse_file_blank_or_bom bom_world example_path
             (65279 :: example_content)); [reflexivity|right; reflexivity].
Defined.

(** X7. What [json.load] returns has no key twice in any of its
    dictionaries, however often the text repeats a key, and reading leaves
    the files and the open file objects as they are. *)
Theorem load_well_formed (fp : file) (fs fs' : builtins.files) (v : pyval) :
  json.load fp fs = (Return v, fs') ->
  well_formed v = true /\ fs' = fs.
Proof.
  unfold json.load, run_bind, read, run_pure.
  destruct (disk fs !! name fp) as [[content|]|]; try done.
  intros [= Hl <-]. split; [|done]. by eapply loads_well_formed.
Qed.

Lemma load_well_formed_witness :
  json.load {| name := example_path |} repeated_files
  = (Return (PDict [(str_of "a", PInt 2)]), repeated_files)
  /\ well_formed (PDict [(str_of "a", PInt 2)]) = true
  /\ repeated_files = repeated_files.
Proof.
  assert (H : json.load {| name := example_path |} repeated_files
              = (Return (PDict [(str_of "a", PInt 2)]), repeated_files))
    by reflexivity.
  split; [exact H|].
  exact (load_well_formed _ _ _ _ H).
Defined.

(** X8. Loading ends for every file: the loops of the decoder stop within
    the length of the text. The one kind of file that the model does not
    follow to its end is a file with a float literal. *)
Theorem parse_file_ends (w : world) (file_path : pystr) (g : gap) :
  fst (_parse_file file_path w) = Unmodelled g -> g = FiniteFloat.
Proof.
  rewrite parse_file_unfold.
  destruct (disk (files w) !! file_path) as [[content|]|]; [|done|done].
  cbv zeta. pose proof (loads_stops content) as Hstop.
  destruct (json.loads content) as [dict_obj|e|g'].
  - rewrite merge_unfold. by destruct dict_obj.
  - done.
  - intros [= <-]. by destruct g'.
Qed.

Lemma parse_file_ends_witness : FiniteFloat = FiniteFloat.
Proof.
  apply (parse_file_ends float_world example_path FiniteFloat). reflexivity.
Defined.

(** ** More about [set_output_handler] *)

(** X9. Without the argument [--json], spelled exactly so, the hook does
    nothing: the application is as before and the set-up of the host is not
    called, whatever that set-up would do. *)
Theorem set_output_handler_without_flag
  (_setup_output_handler : run CementApp unit) (a : CementApp) :
  str_of "--json" ∉ argv (_meta a) ->
  set_output_handler _setup_output_handler a = (Return tt, a).
Proof.
  intros H. unfold set_output_handler. by rewrite bool_decide_eq_false_2.
Qed.

Lemma set_output_handler_without_flag_witness :
  set_output_handler failing_setup other_app = (Return tt, other_app).
Proof.
  apply (set_output_handler_without_flag failing_setup other_app).
  cbn. rewrite !elem_of_cons, elem_of_nil. intros [?|[?|[?|[]]]]; discriminate.
Defined.

(** ** What the decoder returns, the encoder takes *)

(** No scanner makes an object of an unsupported type: what [scan_once]
    returns is built from [None], booleans, integers, floats, strings,
    lists and dictionaries. *)
Lemma dict_supported pairs :
  existsb (fun kv => unsupported (snd kv)) pairs = false ->
  existsb (fun kv => unsupported (snd kv)) (dict pairs) = false.
Proof.
  intros H.
  assert (Hall : forallb (fun kv => negb (unsupported (snd kv))) (dict pairs) = true).
  { unfold dict.
    assert (Hgen : forall acc,
      forallb (fun kv => negb (unsupported (snd kv))) acc = true ->
      forallb (fun kv => negb (unsupported (snd kv)))
        (fold_left (fun d kv => dict_setitem d (fst kv) (snd kv)) pairs acc) = true).
    { induction pairs as [|[k v] pairs IH]; intros acc Hacc; [done|].
      cbn [existsb snd] in H. apply orb_false_iff in H as [Hv Hp].
      cbn [fold_left fst snd]. apply IH; [done|].
      apply (dict_setitem_values (fun v => negb (unsupported v))); [done|].
      by rewrite Hv. }
    by apply Hgen. }
  induction (dict pairs) as [|kv d IH]; [done|]. cbn [forallb existsb] in *.
  apply andb_true_iff in Hall as [Hkv Hd]. apply negb_true_iff in Hkv.
  by rewrite Hkv, IH.
Qed.

Section loops_supported.
Variable scan : pystr -> outcome (pyval * pystr).
Hypothesis scan_supported :
  forall s v rest, scan s = Return (v, rest) -> unsupported v = false.

Lemma JSONArray_loop_supported n :
  forall s values v rest,
    existsb unsupported values = false ->
    JSONArray_loop scan n s values = Return (v, rest) ->
    unsupported v = false.
Proof.
  induction n as [|n IH]; intros s values v rest Hvals; [done|].
  cbn [JSONArray_loop]. destruct (scan s) as [[value s1]| |] eqn:Es; try done.
  cbn [mbind outcome_bind]. apply scan_supported in Es.
  assert (Hvals' : existsb unsupported (values ++ [value]) = false).
  { rewrite existsb_app. cbn. by rewrite Hvals, Es. }
  destruct (skip_ws s1) as [|c s2]; [done|].
  destruct (c =? 93); [by intros [= <- _]|].
  destruct (c =? 44); [|done]. by apply IH.
Qed.

Lemma JSONArray_supported n s v rest :
  JSONArray scan n s = Return (v, rest) -> unsupported v = false.
Proof.
  unfold JSONArray. destruct (skip_ws s) as [|c s'].
  - by apply JSONArray_loop_supported.
  - destruct (c =? 93); [by intros [= <- _]|]. by apply JSONArray_loop_supported.
Qed.

Lemma JSONObject_loop_supported n :
  forall s pairs v rest,
    existsb (fun kv => unsupported (snd kv)) pairs = false ->
    JSONObject_loop scan n s pairs = Return (v, rest) ->
    unsupported v = false.
Proof.
  induction n as [|n IH]; intros s pairs v rest Hpairs; [done|].
  cbn [JSONObject_loop].
  destruct (py_scanstring s) as [[key s1]| |]; try done.
  cbn [mbind outcome_bind].
  destruct (skip_ws s1) as [|colon s2]; [done|].
  destruct (colon =? 58); [|done].
  destruct (scan (skip_ws s2)) as [[value s3]| |] eqn:Es; try done.
  cbn [mbind outcome_bind]. apply scan_supported in Es.
  assert (Hpairs' : existsb (fun kv => unsupported (snd kv))
                      (pairs ++ [(key, value)]) = false).
  { rewrite existsb_app. cbn. by rewrite Hpairs, Es. }
  destruct (skip_ws s3) as [|c s4]; [done|].
  destruct (c =? 125); [intros [= <- _]; by apply dict_supported|].
  destruct (c =? 44); [|done].
  destruct (skip_ws s4) as [|q s5]; [done|].
  destruct (q =? 34); [|done]. by apply IH.
Qed.

Lemma JSONObject_supported n s v rest :
  JSONObject scan n s = Return (v, rest) -> unsupported v = false.
Proof.
  unfold JSONObject. destruct (skip_ws s) as [|c s']; [done|].
  destruct (c =? 34); [by apply JSONObject_loop_supported|].
  destruct (c =? 125); [|done]. by intros [= <- _].
Qed.
End loops_supported.

Lemma scan_once_supported fuel :
  forall s v rest, scan_once fuel s = Return (v, rest) -> unsupported v = false.
Proof.
  induction fuel as [|fuel IH]; intros s v rest; [done|].
  destruct s as [|c s']; [done|]. cbn [scan_once].
  destruct (c =? 34).
  { destruct (py_scanstring s') as [[str r]| |]; try done. by intros [= <- _]. }
  destruct (c =? 123); [by apply JSONObject_supported|].
  destruct (c =? 91); [by apply JSONArray_supported|].
  repeat match goal with
    | |- context [if startswith ?p ?t then _ else _] =>
        destruct (startswith p t); [by intros [= <- _]|]
    end.
  destruct (match_number (c :: s')) as [[[[neg integer] is_float] r]|].
  - destruct is_float; [done|]. by intros [= <- _].
  - repeat match goal with
      | |- context [if startswith ?p ?t then _ else _] =>
          destruct (startswith p t); [by intros [= <- _]|]
      end.
    done.
Qed.

Lemma loads_supported s v : loads s = Return v -> unsupported v = false.
Proof.
  unfold loads. destruct (startswith [65279] s); [done|].
  destruct (scan_once _ _) as [[obj rest]| |] eqn:E; try done.
  cbn [mbind outcome_bind]. destruct (skip_ws rest); [|done].
  intros [= <-]. by eapply scan_once_supported.
Qed.

(** X10. What the config handler can read, the output handler can write:
    for every text that [json.loads] takes, also one with the constants that
    are not finite in it, [render] gives the value that was read a text. *)
Theorem render_of_loaded (s : pystr) (v template : pyval) (p : process) :
  json.loads s = Return v ->
  exists t, fst (render v template p) = Return t.
Proof.
  intros H. rewrite render_unfold. apply dumps_supported.
  by eapply loads_supported.
Qed.

Lemma render_of_loaded_witness :
  exists t, fst (render nan_document PNone sample_process) = Return t.
Proof.
  apply (render_of_loaded nan_content nan_document PNone sample_process).
  reflexivity.
Defined.
